(** * dart_utils: mapped resources and ELF snapshots

    A shallow embedding of
    [shell/platform/fuchsia/runtime/dart/utils/mapped_resource.cc].

    The file is glue code: every interesting step is a call into the
    platform (fdio, Zircon, the Dart ELF loader).  The embedding keeps
    the control flow of the C++ functions and makes the platform explicit:

    - a [Platform] record gives the answer of each external routine that
      returns something;
    - a run of a function is a pair of an [Outcome] and the list of
      external calls it made, in program order ([Event]);
    - a failed [dart_utils::Check] ends the run with [Fatal].

    Logging ([FX_LOG], [FX_LOGF]) and tracing ([TRACE_DURATION]) do not
    influence control flow and are left out of the event list. *)

From Stdlib Require Import ZArith List String Ascii Bool Lia.
Import ListNotations.
Local Open Scope Z_scope.

(** ** Constants of the platform headers *)

Definition nullptr : Z := 0.

(** [zircon/errors.h] *)
Definition ZX_OK : Z := 0.

(** [zircon/types.h]: [zx_vm_option_t] bits. *)
Definition ZX_VM_PERM_READ : Z := Z.shiftl 1 0.
Definition ZX_VM_PERM_WRITE : Z := Z.shiftl 1 1.
Definition ZX_VM_PERM_EXECUTE : Z := Z.shiftl 1 2.

(** [fuchsia.io]: open rights. *)
Definition OPEN_RIGHT_READABLE : Z := 1.
Definition OPEN_RIGHT_EXECUTABLE : Z := 8.

(** [fcntl.h] *)
Definition AT_FDCWD : Z := -100.

(** ** Data *)

(** [fuchsia::mem::Buffer]: a VMO handle and the size of its content. *)
Record Buffer : Type := mkBuffer {
  vmo : Z;
  size : Z
}.

(** A default-constructed buffer: invalid handle, size zero. *)
Definition Buffer_default : Buffer := mkBuffer 0 0.

(** What [Dart_LoadELF_Fd] leaves behind: the returned handle and the
    content of its four out-parameters after the call. *)
Record LoadedElf : Type := mkLoadedElf {
  ld_handle : Z;
  ld_vm_data : Z;
  ld_vm_instrs : Z;
  ld_isolate_data : Z;
  ld_isolate_instrs : Z
}.

(** [fdio_ns_t*] is an opaque handle; [None] stands for [nullptr]. *)
Definition fdio_ns_t : Type := Z.

(** ** The platform *)

(** The answers of the external routines.  Routines with out-parameters
    answer with the return value paired with what the out-parameter holds
    afterwards.  [Dart_LoadELF_Fd] also receives the current content of
    its four out-parameters, so that a loader which leaves them untouched
    on failure is covered.  No function below calls the same routine
    twice in one run, so an answer that depends on the arguments alone
    loses nothing. *)
Record Platform : Type := mkPlatform {
  on_fdio_ns_opendir : fdio_ns_t -> Z;
  on_VmoFromFilename : string -> bool * Buffer;
  on_VmoFromFilenameAt : Z -> string -> bool * Buffer;
  on_replace_as_executable : Z -> Z * Z;
  on_vmar_map : Z -> Z -> Z -> Z -> Z -> Z * Z;
  on_fdio_open_fd_at : Z -> string -> Z -> Z * Z;
  on_Dart_LoadELF_Fd : Z -> Z -> Z -> Z -> Z -> Z -> LoadedElf
}.

(** ** Events: the external calls of a run *)

Inductive Event : Type :=
| EvNsOpendir (ns : fdio_ns_t)
| EvVmoFromFilename (path : string)
| EvVmoFromFilenameAt (dirfd : Z) (path : string)
| EvClose (fd : Z)
| EvReplaceAsExecutable (v : Z)
| EvMap (vmar_offset v vmo_offset len flags : Z)
| EvUnmap (addr len : Z)
| EvOpenFdAt (dirfd : Z) (path : string) (rights : Z)
| EvLoadELF (fd file_offset : Z)
| EvUnloadELF (handle : Z).

(** A lookup is any call that resolves a namespace or a path. *)
Definition is_lookup (e : Event) : bool :=
  match e with
  | EvNsOpendir _ | EvVmoFromFilename _ | EvVmoFromFilenameAt _ _
  | EvOpenFdAt _ _ _ => true
  | _ => false
  end.

Definition is_map (e : Event) : bool :=
  match e with EvMap _ _ _ _ _ => true | _ => false end.

Definition is_close (e : Event) : bool :=
  match e with EvClose _ => true | _ => false end.

Definition is_unload (e : Event) : bool :=
  match e with EvUnloadELF _ => true | _ => false end.

Definition count_unload (tr : list Event) : nat :=
  List.length (List.filter is_unload tr).

(** ** Runs *)

Inductive Outcome (A : Type) : Type :=
| Ret (a : A)
| Fatal.
Arguments Ret {A} a.
Arguments Fatal {A}.

Definition Run (A : Type) : Type := (Outcome A * list Event)%type.

Definition ret {A} (a : A) : Run A := (Ret a, []).

Definition bind {A B} (m : Run A) (k : A -> Run B) : Run B :=
  match m with
  | (Ret a, t) => let (o, t') := k a in (o, t ++ t')
  | (Fatal, t) => (Fatal, t)
  end.

Definition call {A} (e : Event) (a : A) : Run A := (Ret a, [e]).

Definition fatal {A} : Run A := (Fatal, []).

Definition outcome {A} (m : Run A) : Outcome A := fst m.
Definition trace {A} (m : Run A) : list Event := snd m.

Declare Scope run_scope.
Delimit Scope run_scope with run.
Notation "x <- m ;; k" := (bind m (fun x => k))
  (at level 61, m at next level, right associativity) : run_scope.
Notation "' p <- m ;; k" := (bind m (fun x => let 'p := x in k))
  (at level 61, p pattern, m at next level, right associativity) : run_scope.
Notation "m ;; k" := (bind m (fun _ => k))
  (at level 61, right associativity) : run_scope.
Local Open Scope run_scope.

(** [std::string::operator[]]: position [size()] holds the terminating
    null character. *)
Definition string_at (s : string) (pos : nat) : ascii :=
  match String.get pos s with
  | Some c => c
  | None => Ascii.zero
  end.

(** Modelled from the spec: [dart_utils::Check] of
    [runtime/dart/utils/inlines.h] is not among the sources; the spec makes
    the root-anchored-path check a fatal assertion that aborts. *)
Definition Check (condition : bool) : Run unit :=
  if condition then ret tt else fatal.

(** ** External calls *)

Section Calls.
Variable P : Platform.

Definition fdio_ns_opendir (ns : fdio_ns_t) : Run Z :=
  call (EvNsOpendir ns) (on_fdio_ns_opendir P ns).

Definition VmoFromFilename (path : string) : Run (bool * Buffer) :=
  call (EvVmoFromFilename path) (on_VmoFromFilename P path).

Definition VmoFromFilenameAt (dirfd : Z) (path : string)
  : Run (bool * Buffer) :=
  call (EvVmoFromFilenameAt dirfd path) (on_VmoFromFilenameAt P dirfd path).

Definition close (fd : Z) : Run unit := call (EvClose fd) tt.

Definition replace_as_executable (v : Z) : Run (Z * Z) :=
  call (EvReplaceAsExecutable v) (on_replace_as_executable P v).

Definition vmar_map (vmar_offset v vmo_offset len flags : Z)
  : Run (Z * Z) :=
  call (EvMap vmar_offset v vmo_offset len flags)
       (on_vmar_map P vmar_offset v vmo_offset len flags).

Definition vmar_unmap (addr len : Z) : Run unit :=
  call (EvUnmap addr len) tt.

Definition fdio_open_fd_at (dirfd : Z) (path : string) (rights : Z)
  : Run (Z * Z) :=
  call (EvOpenFdAt dirfd path rights)
       (on_fdio_open_fd_at P dirfd path rights).

Definition Dart_LoadELF_Fd (fd file_offset d1 i1 d2 i2 : Z)
  : Run LoadedElf :=
  call (EvLoadELF fd file_offset)
       (on_Dart_LoadELF_Fd P fd file_offset d1 i1 d2 i2).

Definition Dart_UnloadELF (handle : Z) : Run unit :=
  call (EvUnloadELF handle) tt.

(** ** [static bool OpenVmo(...)]

    The out-parameter [resource_vmo] is returned next to the result. *)
Definition OpenVmo (resource_vmo : Buffer) (namespc : option fdio_ns_t)
           (path : string) (executable : bool) : Run (bool * Buffer) :=
  Check (negb (Ascii.eqb (string_at path 0) "/"%char)) ;;
  '(acquired, resource_vmo) <-
     match namespc with
     | None =>
         '(result, b) <- VmoFromFilename path ;;
         if negb result then ret (false, b) else ret (true, b)
     | Some ns =>
         root_dir <- fdio_ns_opendir ns ;;
         if root_dir <? 0 then ret (false, resource_vmo)
         else
           '(result, b) <- VmoFromFilenameAt root_dir path ;;
           close root_dir ;;
           if negb result then ret (result, b) else ret (true, b)
     end ;;
  if negb acquired then ret (false, resource_vmo)
  else if executable then
    '(status, v) <- replace_as_executable (vmo resource_vmo) ;;
    let resource_vmo := mkBuffer v (size resource_vmo) in
    if negb (status =? ZX_OK) then ret (false, resource_vmo)
    else ret (true, resource_vmo)
  else ret (true, resource_vmo).

(** ** [static int OpenFdExec(const std::string& path, int dirfd)] *)
Definition OpenFdExec (path : string) (dirfd : Z) : Run Z :=
  '(result, fd) <-
     fdio_open_fd_at dirfd path
       (Z.lor OPEN_RIGHT_READABLE OPEN_RIGHT_EXECUTABLE) ;;
  if negb (result =? ZX_OK) then ret (-1) else ret fd.
End Calls.

(** ** [class MappedResource] *)

Module MappedResource.
Record t : Type := mk {
  address_ : Z;
  size_ : Z
}.

(** Modelled from the spec: the class declaration ([mapped_resource.h])
    is not among the sources; a default-constructed instance has a null
    address and size zero. *)
Definition fresh : t := mk nullptr 0.

Section WithPlatform.
Variable P : Platform.

(** [bool LoadFromVmo(path, resource_vmo, resource, executable)] *)
Definition LoadFromVmo (path : string) (resource_vmo : Buffer)
           (resource : t) (executable : bool) : Run (bool * t) :=
  if size resource_vmo =? 0 then ret (true, resource)
  else
    let flags := ZX_VM_PERM_READ in
    let flags :=
      if executable then Z.lor flags ZX_VM_PERM_EXECUTE else flags in
    '(status, addr) <-
       vmar_map P 0 (vmo resource_vmo) 0 (size resource_vmo) flags ;;
    if negb (status =? ZX_OK) then ret (false, resource)
    else ret (true, mk addr (size resource_vmo)).

(** [bool LoadFromNamespace(namespc, path, resource, executable)]:
    [OpenVmo(...) && LoadFromVmo(...)]. *)
Definition LoadFromNamespace (namespc : option fdio_ns_t)
           (path : string) (resource : t) (executable : bool)
  : Run (bool * t) :=
  '(opened, resource_vmo) <-
     OpenVmo P Buffer_default namespc path executable ;;
  if opened then LoadFromVmo path resource_vmo resource executable
  else ret (false, resource).

(** [~MappedResource()] *)
Definition destroy (self : t) : Run t :=
  if negb (address_ self =? nullptr) then
    vmar_unmap (address_ self) (size_ self) ;;
    ret (mk nullptr 0)
  else ret self.
End WithPlatform.
End MappedResource.

(** ** [class ElfSnapshot] *)

Module ElfSnapshot.
Record t : Type := mk {
  handle_ : Z;
  vm_data_ : Z;
  vm_instrs_ : Z;
  isolate_data_ : Z;
  isolate_instrs_ : Z
}.

(** Modelled from the spec: the class declaration ([mapped_resource.h])
    is not among the sources; a default-constructed instance has no
    loader handle and no region pointers. *)
Definition fresh : t := mk nullptr nullptr nullptr nullptr nullptr.

Section WithPlatform.
Variable P : Platform.

(** [bool Load(int fd)] *)
Definition Load_fd (self : t) (fd : Z) : Run (bool * t) :=
  r <- Dart_LoadELF_Fd P fd 0 (vm_data_ self) (vm_instrs_ self)
         (isolate_data_ self) (isolate_instrs_ self) ;;
  let self := mk (ld_handle r) (ld_vm_data r) (ld_vm_instrs r)
                 (ld_isolate_data r) (ld_isolate_instrs r) in
  if handle_ self =? nullptr then ret (false, self)
  else ret (true, self).

(** [bool Load(int dirfd, const std::string& path)] *)
Definition Load_dirfd (self : t) (dirfd : Z) (path : string)
  : Run (bool * t) :=
  fd <- OpenFdExec P path dirfd ;;
  if fd <? 0 then ret (false, self)
  else Load_fd self fd.

(** [bool Load(fdio_ns_t* namespc, const std::string& path)] *)
Definition Load_ns (self : t) (namespc : option fdio_ns_t)
           (path : string) : Run (bool * t) :=
  match namespc with
  | None => Load_dirfd self AT_FDCWD path
  | Some ns =>
      root_dir <- fdio_ns_opendir P ns ;;
      if root_dir <? 0 then ret (false, self)
      else Load_dirfd self root_dir path
  end.

(** [~ElfSnapshot()] *)
Definition destroy (self : t) : Run t :=
  Dart_UnloadELF (handle_ self) ;;
  ret self.
End WithPlatform.
End ElfSnapshot.

(** ** A concrete platform

    One namespace (handle 1) whose root opens as descriptor 3; a ten-byte
    resource [data/vm_snapshot.bin] (VMO 11) and an empty resource at the
    empty path (VMO 12); execute rights are never granted; only VMO 11
    can be mapped; [app.so] opens as descriptor 4 and is a well-formed
    image, every other descriptor is rejected by the loader, which then
    leaves its out-parameters as they were. *)
Definition sample_platform : Platform := {|
  on_fdio_ns_opendir := fun ns => if ns =? 1 then 3 else -1;
  on_VmoFromFilename := fun path =>
    if String.eqb path "data/vm_snapshot.bin" then (true, mkBuffer 11 10)
    else if String.eqb path "" then (true, mkBuffer 12 0)
    else (false, Buffer_default);
  on_VmoFromFilenameAt := fun dirfd path =>
    if (dirfd =? 3) && String.eqb path "data/vm_snapshot.bin"
    then (true, mkBuffer 11 10)
    else (false, Buffer_default);
  on_replace_as_executable := fun _ => (-30, 0);
  on_vmar_map := fun _ v _ _ _ =>
    if v =? 11 then (ZX_OK, 65536) else (-4, 0);
  on_fdio_open_fd_at := fun _ path _ =>
    if String.eqb path "app.so" then (ZX_OK, 4)
    else if String.eqb path "/app.so" then (ZX_OK, 5)
    else (-25, -1);
  on_Dart_LoadELF_Fd := fun fd _ d1 i1 d2 i2 =>
    if fd =? 4 then mkLoadedElf 500 1000 2000 3000 4000
    else mkLoadedElf nullptr d1 i1 d2 i2
|}.

(** The contract of [zx_vmar_map] that the properties about addresses
    rely on: a successful mapping is never placed at address zero. *)
Definition map_contract (P : Platform) : Prop :=
  forall vmar_offset v vmo_offset len flags,
    fst (on_vmar_map P vmar_offset v vmo_offset len flags) = ZX_OK ->
    snd (on_vmar_map P vmar_offset v vmo_offset len flags) <> nullptr.

(** ** A second concrete platform

    The namespace and its descriptor as before; two resources, [a.bin]
    (VMO 11, ten bytes) and [b.bin] (VMO 12, twenty bytes); execute
    rights are granted, the grant answering handle [v + 100] for [v];
    VMO [v] is mapped at [65536 * v]; [a.so] and [b.so] open as
    descriptors 4 and 5 and the loader answers handle [100 * fd] for a
    descriptor from 4 on. *)
Definition granting_platform : Platform := {|
  on_fdio_ns_opendir := fun ns => if ns =? 1 then 3 else -1;
  on_VmoFromFilename := fun path =>
    if String.eqb path "a.bin" then (true, mkBuffer 11 10)
    else if String.eqb path "b.bin" then (true, mkBuffer 12 20)
    else (false, Buffer_default);
  on_VmoFromFilenameAt := fun dirfd path =>
    if (dirfd =? 3) && String.eqb path "a.bin"
    then (true, mkBuffer 11 10)
    else (false, Buffer_default);
  on_replace_as_executable := fun v => (ZX_OK, v + 100);
  on_vmar_map := fun _ v _ _ _ =>
    if 0 <? v then (ZX_OK, 65536 * v) else (-4, 0);
  on_fdio_open_fd_at := fun _ path _ =>
    if String.eqb path "a.so" then (ZX_OK, 4)
    else if String.eqb path "b.so" then (ZX_OK, 5)
    else (-25, -1);
  on_Dart_LoadELF_Fd := fun fd _ d1 i1 d2 i2 =>
    if 4 <=? fd
    then mkLoadedElf (100 * fd) (fd + 1000) (fd + 2000) (fd + 3000)
           (fd + 4000)
    else mkLoadedElf nullptr d1 i1 d2 i2
|}.

(** ** Vocabulary for the properties of whole runs *)

(** [fuchsia.io]: the write right, which no function here asks for. *)
Definition OPEN_RIGHT_WRITABLE : Z := 2.


Definition is_grant (e : Event) : bool :=
  match e with EvReplaceAsExecutable _ => true | _ => false end.

Definition is_load_elf (e : Event) : bool :=
  match e with EvLoadELF _ _ => true | _ => false end.

(** The flag word [LoadFromVmo] builds from its executable flag. *)
Definition map_flags (executable : bool) : Z :=
  if executable then Z.lor ZX_VM_PERM_READ ZX_VM_PERM_EXECUTE
  else ZX_VM_PERM_READ.

(** [path[0] == '/']: the test of [OpenVmo] on its path. *)
Definition root_anchored (path : string) : bool :=
  Ascii.eqb (string_at path 0) "/"%char.

(** * Properties *)

Import MappedResource ElfSnapshot.

(** ** Proof support *)

Lemma trace_bind {A B} (m : Run A) (k : A -> Run B) a t :
  m = (Ret a, t) -> trace (bind m k) = t ++ trace (k a).
Proof.
  intros ->. unfold bind, trace. destruct (k a); reflexivity.
Qed.

Lemma outcome_bind {A B} (m : Run A) (k : A -> Run B) a t :
  m = (Ret a, t) -> outcome (bind m k) = outcome (k a).
Proof.
  intros ->. unfold bind, outcome. destruct (k a); reflexivity.
Qed.

Lemma bind_fatal {A B} (m : Run A) (k : A -> Run B) t :
  m = (Fatal, t) -> bind m k = (Fatal, t).
Proof. intros ->. reflexivity. Qed.

Lemma run_eta {A} (m : Run A) : m = (outcome m, trace m).
Proof. destruct m; reflexivity. Qed.

Ltac unfold_calls :=
  unfold fdio_ns_opendir, VmoFromFilename, VmoFromFilenameAt, close,
    replace_as_executable, vmar_map, vmar_unmap, fdio_open_fd_at,
    Dart_LoadELF_Fd, Dart_UnloadELF, Check, call, fatal, ret, bind in *.

(** Case analysis on the innermost blocked scrutinee: an answer of the
    platform or a test on one. *)
Ltac break_inner :=
  match goal with
  | |- context [match ?x with _ => _ end] =>
      lazymatch x with
      | context [match _ with _ => _ end] => fail
      | _ => destruct x eqn:?
      end
  | H : context [match ?x with _ => _ end] |- _ =>
      lazymatch x with
      | context [match _ with _ => _ end] => fail
      | _ => destruct x eqn:?
      end
  end.

Ltac run_cases := unfold_calls; cbn in *; repeat (break_inner; cbn in *).

(** The path check of [OpenVmo] on a root-anchored path. *)
Lemma root_anchored_check rest :
  Check (negb (Ascii.eqb (string_at (String "/" rest) 0) "/")) = fatal.
Proof. reflexivity. Qed.

(** [OpenVmo] stops at its check on a root-anchored path: the run is
    fatal and made no external call. *)
Lemma OpenVmo_root_anchored_fatal P b namespc rest executable :
  OpenVmo P b namespc (String "/" rest) executable = (Fatal, []).
Proof. reflexivity. Qed.

(** So does [MappedResource::LoadFromNamespace]. *)
Lemma LoadFromNamespace_root_anchored_fatal P namespc rest r executable :
  LoadFromNamespace P namespc (String "/" rest) r executable = (Fatal, []).
Proof. reflexivity. Qed.

(** [OpenVmo] never maps. *)
Lemma OpenVmo_no_map P b namespc path executable :
  Forall (fun e => is_map e = false)
         (trace (OpenVmo P b namespc path executable)).
Proof.
  unfold OpenVmo, trace. run_cases; repeat constructor.
Qed.

(** [OpenVmo] closes the directory descriptor it opened from the
    namespace, right after the buffer acquisition, whatever that call
    answered. *)
Lemma OpenVmo_closes_directory P b ns path executable :
  0 <= on_fdio_ns_opendir P ns ->
  Ascii.eqb (string_at path 0) "/" = false ->
  exists rest,
    trace (OpenVmo P b (Some ns) path executable) =
      EvNsOpendir ns
        :: EvVmoFromFilenameAt (on_fdio_ns_opendir P ns) path
        :: EvClose (on_fdio_ns_opendir P ns) :: rest.
Proof.
  intros Hfd Hpath. unfold OpenVmo, trace. rewrite Hpath.
  assert (Hlt : (on_fdio_ns_opendir P ns <? 0) = false) by lia.
  unfold_calls. cbn. rewrite Hlt. cbn.
  repeat (break_inner; cbn); eexists; reflexivity.
Qed.

(** When [opendir] fails in [OpenVmo] there is nothing to close. *)
Lemma OpenVmo_opendir_failure P b ns path executable :
  on_fdio_ns_opendir P ns < 0 ->
  Ascii.eqb (string_at path 0) "/" = false ->
  OpenVmo P b (Some ns) path executable = (Ret (false, b), [EvNsOpendir ns]).
Proof.
  intros Hfd Hpath. unfold OpenVmo. rewrite Hpath.
  assert (Hlt : (on_fdio_ns_opendir P ns <? 0) = true) by lia.
  unfold_calls. cbn. rewrite Hlt. reflexivity.
Qed.

(** ** Root-anchored paths *)

(** C1 (fails on the code for [ElfSnapshot::Load]): on a root-anchored
    path the namespace entry point of [ElfSnapshot] does not reject.  The
    run is never fatal and it starts with a lookup: the namespace
    directory is opened when a namespace is given, and otherwise the path
    itself is opened relative to [AT_FDCWD].  Only
    [MappedResource::LoadFromNamespace] rejects such a path before any
    call, see [LoadFromNamespace_root_anchored_fatal]. *)
Theorem ElfSnapshot_Load_root_anchored_not_rejected :
  forall P self namespc rest,
    let path := String "/" rest in
    let run := Load_ns P self namespc path in
    outcome run <> Fatal /\
    exists tr,
      trace run =
        match namespc with
        | Some ns => EvNsOpendir ns :: tr
        | None =>
            EvOpenFdAt AT_FDCWD path
              (Z.lor OPEN_RIGHT_READABLE OPEN_RIGHT_EXECUTABLE) :: tr
        end /\
      existsb is_lookup (trace run) = true.
Proof.
  intros P self namespc rest path run. subst run.
  unfold Load_ns, Load_dirfd, Load_fd, OpenFdExec, outcome, trace.
  destruct namespc as [ns|]; run_cases;
    (split; [discriminate | eexists; split; reflexivity]).
Qed.

(** The same at a concrete input: with the namespace of the sample
    platform, [/app.so] is looked up and loaded. *)
Example ElfSnapshot_Load_root_anchored_run :
  Load_ns sample_platform ElfSnapshot.fresh (Some 1) "/app.so" =
    (Ret (false, ElfSnapshot.fresh),
     [EvNsOpendir 1; EvOpenFdAt 3 "/app.so" 9; EvLoadELF 5 0]).
Proof. reflexivity. Qed.

(** C9: the empty path passes the root-anchored-path check of [OpenVmo].
    Position 0 of the empty string is the null character, the check
    returns normally, the run is not fatal, and the acquisition is
    attempted with the empty path: by file name without a namespace, and
    after opening the namespace directory with one. *)
Theorem OpenVmo_empty_path_passes_check :
  forall P b namespc executable,
    let run := OpenVmo P b namespc "" executable in
    string_at "" 0 = Ascii.zero /\
    Check (negb (Ascii.eqb (string_at "" 0) "/")) = ret tt /\
    outcome run <> Fatal /\
    exists tr,
      trace run =
        match namespc with
        | None => EvVmoFromFilename "" :: tr
        | Some ns =>
            if on_fdio_ns_opendir P ns <? 0 then [EvNsOpendir ns]
            else EvNsOpendir ns
                   :: EvVmoFromFilenameAt (on_fdio_ns_opendir P ns) ""
                   :: tr
        end.
Proof.
  intros P b namespc executable run. subst run.
  repeat split.
  - unfold OpenVmo, outcome. destruct namespc; run_cases; discriminate.
  - unfold OpenVmo, trace.
    destruct namespc as [ns|]; run_cases;
      first [ exists []; reflexivity | eexists; reflexivity ].
Qed.

(** ** Directory descriptors *)

(** C4 (fails on the code for [ElfSnapshot::Load]): the namespace entry
    point of [ElfSnapshot] opens the namespace directory and never closes
    a descriptor, on any exit path: when [fdio_ns_opendir] answered a
    valid descriptor, the run ends with that descriptor still open.
    [OpenVmo] does close its descriptor, see [OpenVmo_closes_directory]. *)
Theorem ElfSnapshot_Load_never_closes_directory :
  forall P self ns path,
    let run := Load_ns P self (Some ns) path in
    outcome run <> Fatal /\
    In (EvNsOpendir ns) (trace run) /\
    ~ In (EvClose (on_fdio_ns_opendir P ns)) (trace run) /\
    Forall (fun e => is_close e = false) (trace run).
Proof.
  intros P self ns path run. subst run.
  unfold Load_ns, Load_dirfd, Load_fd, OpenFdExec, outcome, trace.
  run_cases; repeat split;
    solve [ discriminate | left; reflexivity | repeat constructor
          | intros H; repeat (destruct H as [H|H]; [discriminate|]);
            exact H ].
Qed.

(** The same at a concrete input: a successful load through the namespace
    of the sample platform leaves descriptor 3 open. *)
Example ElfSnapshot_Load_leak_run :
  Load_ns sample_platform ElfSnapshot.fresh (Some 1) "app.so" =
    (Ret (true, ElfSnapshot.mk 500 1000 2000 3000 4000),
     [EvNsOpendir 1; EvOpenFdAt 3 "app.so" 9; EvLoadELF 4 0]).
Proof. reflexivity. Qed.

(** ** Teardown of an ELF snapshot *)

(** C3, counterexample: destroying a default-constructed [ElfSnapshot]
    calls [Dart_UnloadELF] once, with the null handle, not zero times;
    and destroying a loaded instance leaves its handle field as it was. *)
Lemma ElfSnapshot_destroy_fresh_calls_unload :
  count_unload (trace (ElfSnapshot.destroy ElfSnapshot.fresh)) = 1%nat /\
  count_unload (trace (ElfSnapshot.destroy ElfSnapshot.fresh)) <> 0%nat /\
  outcome (ElfSnapshot.destroy (ElfSnapshot.mk 500 1000 2000 3000 4000)) =
    Ret (ElfSnapshot.mk 500 1000 2000 3000 4000) /\
  handle_ (ElfSnapshot.mk 500 1000 2000 3000 4000) <> nullptr.
Proof. repeat split; cbn; discriminate. Qed.

(** After [Load(fd)] the handle field is null exactly when the load
    reported failure. *)
Lemma Load_fd_result_handle P self fd ok self' tr :
  Load_fd P self fd = (Ret (ok, self'), tr) ->
  ok = negb (handle_ self' =? nullptr).
Proof.
  unfold Load_fd. unfold_calls. cbn -[Z.eqb].
  match goal with
  | |- context [if ?c then _ else _] => destruct c eqn:E
  end; intros H; inversion H; subst; cbn [handle_]; rewrite E; reflexivity.
Qed.

(** C3, amended: destroying an [ElfSnapshot] calls [Dart_UnloadELF]
    exactly once with the stored loader handle, whatever it is: the
    handle of the load when that succeeded, the null handle when the
    instance is default-constructed or its load failed.  The destructor
    leaves the handle field as it is. *)
Theorem ElfSnapshot_destroy_unloads_stored_handle :
  forall P self fd,
    ElfSnapshot.destroy self = (Ret self, [EvUnloadELF (handle_ self)]) /\
    count_unload (trace (ElfSnapshot.destroy self)) = 1%nat /\
    trace (ElfSnapshot.destroy ElfSnapshot.fresh) = [EvUnloadELF nullptr] /\
    exists ok self',
      outcome (Load_fd P self fd) = Ret (ok, self') /\
      ok = negb (handle_ self' =? nullptr) /\
      trace (ElfSnapshot.destroy self') = [EvUnloadELF (handle_ self')].
Proof.
  intros P self fd. repeat split.
  destruct (Load_fd P self fd) as [[[ok self']|] tr] eqn:E.
  - exists ok, self'. repeat split.
    eapply Load_fd_result_handle; exact E.
  - exfalso. revert E. unfold Load_fd. run_cases; discriminate.
Qed.

(** ** Loading over a loaded snapshot *)

(** C10: [Load(fd)] on an instance that holds a loader handle calls the
    loader once and nothing else, so the old handle is not unloaded; the
    handle field becomes what the loader returned, null on failure, and
    the four region fields become what the loader left in its
    out-parameters; the result is failure exactly when the new handle is
    null. *)
Theorem Load_fd_overwrites_without_unload :
  forall P self fd,
    handle_ self <> nullptr ->
    let r := on_Dart_LoadELF_Fd P fd 0 (vm_data_ self) (vm_instrs_ self)
               (isolate_data_ self) (isolate_instrs_ self) in
    Load_fd P self fd =
      (Ret (negb (ld_handle r =? nullptr),
            ElfSnapshot.mk (ld_handle r) (ld_vm_data r) (ld_vm_instrs r)
              (ld_isolate_data r) (ld_isolate_instrs r)),
       [EvLoadELF fd 0]) /\
    ~ In (EvUnloadELF (handle_ self)) (trace (Load_fd P self fd)) /\
    count_unload (trace (Load_fd P self fd)) = 0%nat.
Proof.
  intros P self fd _ r. subst r.
  unfold Load_fd, trace. run_cases; repeat split; try reflexivity.
  all: intros [H|[]]; discriminate.
Qed.

(** A failed load over the loaded sample image nulls the handle. *)
Lemma Load_fd_overwrites_without_unload_witness :
  handle_ (ElfSnapshot.mk 500 1000 2000 3000 4000) <> nullptr /\
  Load_fd sample_platform (ElfSnapshot.mk 500 1000 2000 3000 4000) 7 =
    (Ret (false, ElfSnapshot.mk nullptr 1000 2000 3000 4000),
     [EvLoadELF 7 0]).
Proof.
  split; [discriminate |].
  apply (Load_fd_overwrites_without_unload sample_platform
           (ElfSnapshot.mk 500 1000 2000 3000 4000) 7).
  discriminate.
Defined.

(** ** Execute rights *)

(** C2: in a call of [LoadFromNamespace] with the executable flag set, if
    [replace_as_executable] was called and did not answer [ZX_OK], the
    call returns failure, leaves the instance as it was, and made no
    mapping call at all, executable or not. *)
Theorem LoadFromNamespace_grant_failure_is_failure :
  forall P namespc path resource o tr v,
    LoadFromNamespace P namespc path resource true = (o, tr) ->
    In (EvReplaceAsExecutable v) tr ->
    fst (on_replace_as_executable P v) <> ZX_OK ->
    o = Ret (false, resource) /\
    Forall (fun e => is_map e = false) tr.
Proof.
  intros P namespc path resource o tr v Hrun Hin Hfail.
  unfold LoadFromNamespace, OpenVmo, LoadFromVmo in Hrun.
  destruct namespc as [ns|]; run_cases;
    inversion Hrun; subst; clear Hrun; cbn in Hin;
    repeat (destruct Hin as [Hin|Hin]; [try discriminate|]);
    try contradiction;
    try contradiction;
    try (split; [reflexivity | repeat constructor]).
  all: exfalso; inversion Hin; subst; apply Hfail.
  all: match goal with
       | H : on_replace_as_executable _ _ = _ |- _ => rewrite H
       end; cbn [fst]; lia.
Qed.

(** On the sample platform the ten-byte snapshot is acquired and the
    grant is refused: the load fails without a mapping call. *)
Lemma LoadFromNamespace_grant_failure_witness :
  LoadFromNamespace sample_platform None "data/vm_snapshot.bin"
    MappedResource.fresh true =
    (Ret (false, MappedResource.fresh),
     [EvVmoFromFilename "data/vm_snapshot.bin"; EvReplaceAsExecutable 11]) /\
  Ret (false, MappedResource.fresh) = Ret (false, MappedResource.fresh) /\
  Forall (fun e => is_map e = false)
    [EvVmoFromFilename "data/vm_snapshot.bin"; EvReplaceAsExecutable 11].
Proof.
  split; [reflexivity |].
  apply (LoadFromNamespace_grant_failure_is_failure sample_platform None
           "data/vm_snapshot.bin" MappedResource.fresh _ _ 11 eq_refl).
  - right; left; reflexivity.
  - cbn. discriminate.
Defined.

(** ** Mapping *)

(** C5, counterexample: a zero-size buffer loaded into an instance that
    already holds a mapping returns success and the instance still has its
    non-null address and its size of ten. *)
Lemma LoadFromVmo_zero_size_keeps_loaded_instance :
  size (mkBuffer 12 0) = 0 /\
  LoadFromVmo sample_platform "" (mkBuffer 12 0)
    (MappedResource.mk 65536 10) false =
    (Ret (true, MappedResource.mk 65536 10), []) /\
  address_ (MappedResource.mk 65536 10) <> nullptr /\
  size_ (MappedResource.mk 65536 10) <> 0.
Proof. repeat split; cbn; discriminate. Qed.

(** C5, amended: when the buffer's size is zero, [LoadFromVmo] returns
    success without any external call and leaves the address and size of
    the instance as they were, so an unloaded instance stays with a null
    address and size zero; and [LoadFromNamespace], when [OpenVmo]
    acquired such a buffer, returns success with the instance as it was
    and made no mapping call. *)
Theorem LoadFromVmo_zero_size_is_noop :
  forall P path resource_vmo resource executable,
    size resource_vmo = 0 ->
    LoadFromVmo P path resource_vmo resource executable =
      (Ret (true, resource), []) /\
    LoadFromVmo P path resource_vmo MappedResource.fresh executable =
      (Ret (true, MappedResource.mk nullptr 0), []) /\
    forall namespc tr,
      OpenVmo P Buffer_default namespc path executable =
        (Ret (true, resource_vmo), tr) ->
      LoadFromNamespace P namespc path resource executable =
        (Ret (true, resource), tr) /\
      Forall (fun e => is_map e = false) tr.
Proof.
  intros P path resource_vmo resource executable Hsize.
  assert (Hnoop : forall r,
             LoadFromVmo P path resource_vmo r executable =
               (Ret (true, r), [])).
  { intros r. unfold LoadFromVmo. rewrite Hsize. reflexivity. }
  split; [apply Hnoop | split; [apply Hnoop |]].
  intros namespc tr Hopen. split.
  - unfold LoadFromNamespace. rewrite Hopen. cbn [bind].
    rewrite Hnoop. rewrite app_nil_r. reflexivity.
  - pose proof (OpenVmo_no_map P Buffer_default namespc path executable) as H.
    rewrite Hopen in H. exact H.
Qed.

(** The empty resource of the sample platform, loaded into a fresh
    instance. *)
Lemma LoadFromVmo_zero_size_is_noop_witness :
  size (mkBuffer 12 0) = 0 /\
  LoadFromVmo sample_platform "" (mkBuffer 12 0) MappedResource.fresh false =
    (Ret (true, MappedResource.fresh), []) /\
  LoadFromNamespace sample_platform None "" MappedResource.fresh false =
    (Ret (true, MappedResource.fresh), [EvVmoFromFilename ""]).
Proof.
  split; [reflexivity |].
  split.
  - apply (LoadFromVmo_zero_size_is_noop sample_platform ""
             (mkBuffer 12 0) MappedResource.fresh false eq_refl).
  - apply (LoadFromVmo_zero_size_is_noop sample_platform ""
             (mkBuffer 12 0) MappedResource.fresh false eq_refl).
    reflexivity.
Defined.

(** The protection bits of the two flag words [LoadFromVmo] can build. *)
Lemma map_flags_no_write executable :
  Z.land (if executable : bool
          then Z.lor ZX_VM_PERM_READ ZX_VM_PERM_EXECUTE
          else ZX_VM_PERM_READ) ZX_VM_PERM_WRITE = 0.
Proof. destruct executable; reflexivity. Qed.

(** The sample platform honours the mapping contract. *)
Lemma sample_platform_map_contract : map_contract sample_platform.
Proof.
  intros vmar_offset v vmo_offset len flags. cbn.
  destruct (v =? 11); cbn; intros H; discriminate.
Qed.

(** C6: after a successful [LoadFromVmo] on a buffer of non-zero size, on
    a platform whose successful mappings are never at address zero, the
    address of the instance is the non-null address the mapping call
    answered and its size is the buffer's size; the call made exactly one
    mapping request, for the whole buffer, with the flags [READ] when the
    executable flag is off and [READ | EXECUTE] when it is on, so without
    the [WRITE] bit. *)
Theorem LoadFromVmo_success_maps_buffer :
  forall P path resource_vmo resource executable resource' tr,
    map_contract P ->
    size resource_vmo <> 0 ->
    LoadFromVmo P path resource_vmo resource executable =
      (Ret (true, resource'), tr) ->
    let flags := if executable
                 then Z.lor ZX_VM_PERM_READ ZX_VM_PERM_EXECUTE
                 else ZX_VM_PERM_READ in
    address_ resource' <> nullptr /\
    address_ resource' =
      snd (on_vmar_map P 0 (vmo resource_vmo) 0 (size resource_vmo) flags) /\
    size_ resource' = size resource_vmo /\
    tr = [EvMap 0 (vmo resource_vmo) 0 (size resource_vmo) flags] /\
    Z.land flags ZX_VM_PERM_WRITE = 0 /\
    Z.testbit flags 1 = false.
Proof.
  intros P path resource_vmo resource executable resource' tr
         Hcontract Hsize Hrun flags.
  assert (Hflags : Z.land flags ZX_VM_PERM_WRITE = 0)
    by apply map_flags_no_write.
  assert (Hbit : Z.testbit flags 1 = false)
    by (subst flags; destruct executable; reflexivity).
  unfold LoadFromVmo in Hrun.
  apply Z.eqb_neq in Hsize. rewrite Hsize in Hrun.
  unfold vmar_map, call, ret, bind in Hrun. fold flags in Hrun.
  pose proof (Hcontract 0 (vmo resource_vmo) 0 (size resource_vmo) flags)
    as Hnonnull.
  destruct (on_vmar_map P 0 (vmo resource_vmo) 0 (size resource_vmo) flags)
    as [status addr] eqn:Hmap.
  cbn [fst snd] in *.
  destruct (status =? ZX_OK) eqn:Hstatus; cbn in Hrun;
    inversion Hrun; subst resource' tr; clear Hrun.
  apply Z.eqb_eq in Hstatus.
  cbn [address_ size_]. auto 10.
Qed.

(** The scenario of the specification: [data/vm_snapshot.bin], ten bytes,
    not executable, is mapped read-only at a non-null address. *)
Lemma LoadFromVmo_success_maps_buffer_witness :
  map_contract sample_platform /\
  size (mkBuffer 11 10) <> 0 /\
  LoadFromVmo sample_platform "data/vm_snapshot.bin" (mkBuffer 11 10)
    MappedResource.fresh false =
    (Ret (true, MappedResource.mk 65536 10), [EvMap 0 11 0 10 1]) /\
  address_ (MappedResource.mk 65536 10) <> nullptr.
Proof.
  split; [exact sample_platform_map_contract |].
  split; [discriminate |].
  split; [reflexivity |].
  apply (LoadFromVmo_success_maps_buffer sample_platform
           "data/vm_snapshot.bin" (mkBuffer 11 10) MappedResource.fresh
           false (MappedResource.mk 65536 10) [EvMap 0 11 0 10 1]
           sample_platform_map_contract).
  - discriminate.
  - reflexivity.
Defined.

(** C7: when the mapping call of [LoadFromVmo] does not answer [ZX_OK],
    the call returns failure and the instance it hands back is the one it
    was given: its address and its size are what they were before the
    call. *)
Theorem LoadFromVmo_map_failure_keeps_instance :
  forall P path resource_vmo resource executable o tr
         vmar_offset v vmo_offset len flags,
    LoadFromVmo P path resource_vmo resource executable = (o, tr) ->
    In (EvMap vmar_offset v vmo_offset len flags) tr ->
    fst (on_vmar_map P vmar_offset v vmo_offset len flags) <> ZX_OK ->
    o = Ret (false, resource).
Proof.
  intros P path resource_vmo resource executable o tr
         vmar_offset v vmo_offset len flags Hrun Hin Hfail.
  unfold LoadFromVmo in Hrun.
  run_cases; inversion Hrun; subst; clear Hrun; cbn in Hin;
    repeat (destruct Hin as [Hin|Hin]; [try discriminate|]);
    try contradiction; try reflexivity.
  all: exfalso; inversion Hin; subst; apply Hfail.
  all: match goal with
       | H : on_vmar_map _ _ _ _ _ _ = _ |- _ => rewrite H
       end; cbn [fst]; lia.
Qed.

(** On the sample platform VMO 13 cannot be mapped: a loaded instance
    keeps its address and size. *)
Lemma LoadFromVmo_map_failure_keeps_instance_witness :
  LoadFromVmo sample_platform "x" (mkBuffer 13 20)
    (MappedResource.mk 65536 10) true =
    (Ret (false, MappedResource.mk 65536 10), [EvMap 0 13 0 20 5]) /\
  Ret (false, MappedResource.mk 65536 10) =
    Ret (false, MappedResource.mk 65536 10).
Proof.
  split; [reflexivity |].
  apply (LoadFromVmo_map_failure_keeps_instance sample_platform "x"
           (mkBuffer 13 20) (MappedResource.mk 65536 10) true
           _ _ 0 13 0 20 5 eq_refl).
  - left; reflexivity.
  - cbn. discriminate.
Defined.

(** ** The three layers of [ElfSnapshot::Load] *)

(** Without a namespace the top layer is the descriptor layer at
    [AT_FDCWD]. *)
Lemma Load_ns_without_namespace P self path :
  Load_ns P self None path = Load_dirfd P self AT_FDCWD path.
Proof. reflexivity. Qed.

(** With a namespace whose directory opens, the top layer is the
    descriptor layer after the [opendir] call. *)
Lemma Load_ns_delegates P self ns path :
  0 <= on_fdio_ns_opendir P ns ->
  Load_ns P self (Some ns) path =
    (outcome (Load_dirfd P self (on_fdio_ns_opendir P ns) path),
     EvNsOpendir ns
       :: trace (Load_dirfd P self (on_fdio_ns_opendir P ns) path)).
Proof.
  intros Hfd. unfold Load_ns.
  assert (Hlt : (on_fdio_ns_opendir P ns <? 0) = false) by lia.
  unfold fdio_ns_opendir, call, bind. rewrite Hlt.
  destruct (Load_dirfd P self (on_fdio_ns_opendir P ns) path).
  reflexivity.
Qed.

(** When the path opens, the descriptor layer is the bottom layer after
    the [fdio_open_fd_at] call. *)
Lemma Load_dirfd_delegates P self dirfd path fd :
  on_fdio_open_fd_at P dirfd path
    (Z.lor OPEN_RIGHT_READABLE OPEN_RIGHT_EXECUTABLE) = (ZX_OK, fd) ->
  0 <= fd ->
  Load_dirfd P self dirfd path =
    (outcome (Load_fd P self fd),
     EvOpenFdAt dirfd path (Z.lor OPEN_RIGHT_READABLE OPEN_RIGHT_EXECUTABLE)
       :: trace (Load_fd P self fd)).
Proof.
  intros Hopen Hfd. unfold Load_dirfd, OpenFdExec.
  assert (Hlt : (fd <? 0) = false) by lia.
  unfold fdio_open_fd_at, call, ret, bind. rewrite Hopen.
  cbn [negb Z.eqb ZX_OK app]. rewrite Hlt.
  destruct (Load_fd P self fd). reflexivity.
Qed.

(** C8: when the namespace resolves to the directory descriptor [dirfd]
    and the path opens under it as [fd], the three entry points of
    [ElfSnapshot::Load] return the same result and leave the same
    instance, with the same loader handle and region pointers.  Each
    layer delegates to the next: the external calls of a lower layer are
    the tail of those of the layer above, which adds the [opendir] call
    (when there is a namespace) and the [fdio_open_fd_at] call. *)
Theorem ElfSnapshot_Load_layers_agree :
  forall P self namespc path dirfd fd,
    match namespc with
    | None => dirfd = AT_FDCWD
    | Some ns => on_fdio_ns_opendir P ns = dirfd /\ 0 <= dirfd
    end ->
    on_fdio_open_fd_at P dirfd path
      (Z.lor OPEN_RIGHT_READABLE OPEN_RIGHT_EXECUTABLE) = (ZX_OK, fd) ->
    0 <= fd ->
    outcome (Load_ns P self namespc path) = outcome (Load_fd P self fd) /\
    outcome (Load_dirfd P self dirfd path) = outcome (Load_fd P self fd) /\
    trace (Load_dirfd P self dirfd path) =
      EvOpenFdAt dirfd path (Z.lor OPEN_RIGHT_READABLE OPEN_RIGHT_EXECUTABLE)
        :: trace (Load_fd P self fd) /\
    trace (Load_ns P self namespc path) =
      match namespc with
      | None => []
      | Some ns => [EvNsOpendir ns]
      end ++ trace (Load_dirfd P self dirfd path) /\
    (List.length (trace (Load_fd P self fd))
     < List.length (trace (Load_dirfd P self dirfd path))
     <= List.length (trace (Load_ns P self namespc path)))%nat.
Proof.
  intros P self namespc path dirfd fd Hns Hopen Hfd.
  pose proof (Load_dirfd_delegates P self dirfd path fd Hopen Hfd) as Hmid.
  assert (Htop : Load_ns P self namespc path =
                   (outcome (Load_dirfd P self dirfd path),
                    match namespc with
                    | None => []
                    | Some ns => [EvNsOpendir ns]
                    end ++ trace (Load_dirfd P self dirfd path))).
  { destruct namespc as [ns|].
    - destruct Hns as [Hdir Hge]. subst dirfd.
      apply Load_ns_delegates. exact Hge.
    - subst dirfd. rewrite Load_ns_without_namespace. apply run_eta. }
  rewrite Htop, Hmid. cbn [outcome trace fst snd].
  repeat split; try reflexivity.
  - cbn [List.length]. lia.
  - rewrite length_app. lia.
Qed.

(** [app.so] of the sample platform through the three layers. *)
Lemma ElfSnapshot_Load_layers_agree_witness :
  (on_fdio_ns_opendir sample_platform 1 = 3 /\ 0 <= 3) /\
  on_fdio_open_fd_at sample_platform 3 "app.so"
    (Z.lor OPEN_RIGHT_READABLE OPEN_RIGHT_EXECUTABLE) = (ZX_OK, 4) /\
  0 <= 4 /\
  outcome (Load_ns sample_platform ElfSnapshot.fresh (Some 1) "app.so") =
    outcome (Load_fd sample_platform ElfSnapshot.fresh 4) /\
  outcome (Load_fd sample_platform ElfSnapshot.fresh 4) =
    Ret (true, ElfSnapshot.mk 500 1000 2000 3000 4000).
Proof.
  assert (Hns : on_fdio_ns_opendir sample_platform 1 = 3 /\ 0 <= 3)
    by (split; [reflexivity | lia]).
  assert (Hfd : 0 <= 4) by lia.
  split; [exact Hns |].
  split; [reflexivity |].
  split; [exact Hfd |].
  split; [| reflexivity].
  apply (ElfSnapshot_Load_layers_agree sample_platform ElfSnapshot.fresh
           (Some 1) "app.so" 3 4 Hns eq_refl Hfd).
Defined.

(** * Further properties of the two classes *)

(** ** Support *)

(** [LoadFromVmo] on a buffer of non-zero size, as one case split on the
    status of the mapping call. *)
Lemma LoadFromVmo_nonzero P path resource_vmo resource executable :
  size resource_vmo <> 0 ->
  LoadFromVmo P path resource_vmo resource executable =
    (Ret (if fst (on_vmar_map P 0 (vmo resource_vmo) 0 (size resource_vmo)
                    (map_flags executable)) =? ZX_OK
          then (true,
                MappedResource.mk
                  (snd (on_vmar_map P 0 (vmo resource_vmo) 0
                          (size resource_vmo) (map_flags executable)))
                  (size resource_vmo))
          else (false, resource)),
     [EvMap 0 (vmo resource_vmo) 0 (size resource_vmo)
        (map_flags executable)]).
Proof.
  intros Hsize. unfold LoadFromVmo.
  apply Z.eqb_neq in Hsize. rewrite Hsize.
  replace (if executable
           then Z.lor ZX_VM_PERM_READ ZX_VM_PERM_EXECUTE
           else ZX_VM_PERM_READ) with (map_flags executable) by reflexivity.
  unfold vmar_map, call, ret, bind.
  destruct (on_vmar_map P 0 (vmo resource_vmo) 0 (size resource_vmo)
              (map_flags executable)) as [status addr].
  cbn [fst snd]. destruct (status =? ZX_OK); reflexivity.
Qed.

(** [LoadFromVmo] makes at most the one mapping call, whatever the
    buffer. *)
Lemma LoadFromVmo_trace P path resource_vmo resource executable :
  trace (LoadFromVmo P path resource_vmo resource executable) =
    if size resource_vmo =? 0 then []
    else [EvMap 0 (vmo resource_vmo) 0 (size resource_vmo)
            (map_flags executable)].
Proof.
  destruct (size resource_vmo =? 0) eqn:Hsize.
  - unfold LoadFromVmo. rewrite Hsize. reflexivity.
  - apply Z.eqb_neq in Hsize. rewrite LoadFromVmo_nonzero by exact Hsize.
    reflexivity.
Qed.

(** ** Lifetime of a mapping *)

(** X1: a mapping made by a successful [LoadFromVmo] is released by the
    destructor: on a platform that never maps at address zero, destroying
    the instance after a successful load of a non-empty buffer makes
    exactly one unmap call, for the address the mapping call answered and
    the size of the buffer, and leaves the instance with a null address
    and size zero. *)
Theorem MappedResource_load_then_destroy_unmaps :
  forall P path resource_vmo resource executable resource' tr,
    map_contract P ->
    size resource_vmo <> 0 ->
    LoadFromVmo P path resource_vmo resource executable =
      (Ret (true, resource'), tr) ->
    MappedResource.destroy resource' =
      (Ret (MappedResource.mk nullptr 0),
       [EvUnmap
          (snd (on_vmar_map P 0 (vmo resource_vmo) 0 (size resource_vmo)
                  (map_flags executable)))
          (size resource_vmo)]).
Proof.
  intros P path resource_vmo resource executable resource' tr
         Hcontract Hsize Hrun.
  rewrite LoadFromVmo_nonzero in Hrun by exact Hsize.
  pose proof (Hcontract 0 (vmo resource_vmo) 0 (size resource_vmo)
                (map_flags executable)) as Hnonnull.
  destruct (fst (on_vmar_map P 0 (vmo resource_vmo) 0 (size resource_vmo)
                   (map_flags executable)) =? ZX_OK) eqn:Hstatus;
    inversion Hrun; subst resource' tr; clear Hrun.
  apply Z.eqb_eq in Hstatus. specialize (Hnonnull Hstatus).
  unfold MappedResource.destroy. cbn [address_ size_].
  apply Z.eqb_neq in Hnonnull. rewrite Hnonnull. reflexivity.
Qed.

(** The ten-byte snapshot of the sample platform is mapped at 65536 and
    unmapped there. *)
Lemma MappedResource_load_then_destroy_unmaps_witness :
  MappedResource.destroy (MappedResource.mk 65536 10) =
    (Ret (MappedResource.mk nullptr 0), [EvUnmap 65536 10]).
Proof.
  apply (MappedResource_load_then_destroy_unmaps sample_platform
           "data/vm_snapshot.bin" (mkBuffer 11 10) MappedResource.fresh
           false (MappedResource.mk 65536 10) [EvMap 0 11 0 10 1]
           sample_platform_map_contract).
  - discriminate.
  - reflexivity.
Defined.

(** X2: the destructor of [MappedResource] unmaps at most once and only a
    non-null address; afterwards the address is null, and destroying the
    result again makes no call and changes nothing. *)
Theorem MappedResource_destroy_idempotent :
  forall self,
    exists self1,
      outcome (MappedResource.destroy self) = Ret self1 /\
      trace (MappedResource.destroy self) =
        (if address_ self =? nullptr then []
         else [EvUnmap (address_ self) (size_ self)]) /\
      address_ self1 = nullptr /\
      MappedResource.destroy self1 = (Ret self1, []).
Proof.
  intros self. unfold MappedResource.destroy.
  destruct (address_ self =? nullptr) eqn:Haddr; cbn.
  - exists self. rewrite Haddr. cbn.
    apply Z.eqb_eq in Haddr. auto.
  - exists (MappedResource.mk nullptr 0). cbn. auto.
Qed.



(** ** Whole runs of [LoadFromNamespace] *)

(** X4: whatever step fails (opening the namespace directory, acquiring
    the buffer, the execute grant, the mapping), a [LoadFromNamespace]
    that returns failure hands back the instance it was given. *)
Theorem LoadFromNamespace_failure_keeps_instance :
  forall P namespc path resource executable resource' tr,
    LoadFromNamespace P namespc path resource executable =
      (Ret (false, resource'), tr) ->
    resource' = resource.
Proof.
  intros P namespc path resource executable resource' tr Hrun.
  unfold LoadFromNamespace, OpenVmo, LoadFromVmo in Hrun.
  destruct namespc as [ns|]; run_cases;
    inversion Hrun; subst; reflexivity.
Qed.

(** A path the sample platform does not know, into a loaded instance. *)
Lemma LoadFromNamespace_failure_keeps_instance_witness :
  MappedResource.mk 65536 10 = MappedResource.mk 65536 10.
Proof.
  apply (LoadFromNamespace_failure_keeps_instance sample_platform
           (Some 1) "missing" (MappedResource.mk 65536 10) true
           (MappedResource.mk 65536 10)
           [EvNsOpendir 1; EvVmoFromFilenameAt 3 "missing"; EvClose 3]).
  reflexivity.
Defined.

(** X5: [LoadFromNamespace] is fatal exactly on the paths whose first
    character is a slash, and then it made no external call; on every
    other path, the empty one included, the run returns. *)
Theorem LoadFromNamespace_fatal_iff_root_anchored :
  forall P namespc path resource executable,
    if root_anchored path
    then LoadFromNamespace P namespc path resource executable = (Fatal, [])
    else outcome (LoadFromNamespace P namespc path resource executable)
         <> Fatal.
Proof.
  intros P namespc path resource executable.
  unfold root_anchored, LoadFromNamespace, OpenVmo, LoadFromVmo, outcome.
  destruct (Ascii.eqb (string_at path 0) "/") eqn:Hpath; [reflexivity |].
  destruct namespc as [ns|]; run_cases; discriminate.
Qed.

(** What a successful [OpenVmo] with the executable flag hands on: the
    last call is a grant that answered [ZX_OK], the buffer carries the
    handle that grant answered, and nothing was mapped or granted
    before. *)
Lemma OpenVmo_executable_success P b namespc path buf tr :
  OpenVmo P b namespc path true = (Ret (true, buf), tr) ->
  exists v0 pre,
    tr = pre ++ [EvReplaceAsExecutable v0] /\
    fst (on_replace_as_executable P v0) = ZX_OK /\
    vmo buf = snd (on_replace_as_executable P v0) /\
    Forall (fun e => is_map e = false /\ is_grant e = false) pre.
Proof.
  intros Hrun. unfold OpenVmo in Hrun.
  destruct namespc as [ns|]; run_cases;
    inversion Hrun; subst; clear Hrun.
  all: match goal with
       | H : on_replace_as_executable _ ?v0 = _
         |- (exists _ _, ?t = _ /\ _) =>
           exists v0, (removelast t); rewrite H
       end; cbn; repeat split; try lia; repeat constructor.
Qed.

(** X6: when [LoadFromNamespace] with the executable flag set maps
    anything, the mapping call is the last call of the run and comes
    right after a grant that answered [ZX_OK]; the handle mapped is the
    one that grant answered, not the one acquired, and the flags are
    [READ | EXECUTE]. *)
Theorem LoadFromNamespace_executable_maps_granted_handle :
  forall P namespc path resource o tr vmar_offset v vmo_offset len flags,
    LoadFromNamespace P namespc path resource true = (o, tr) ->
    In (EvMap vmar_offset v vmo_offset len flags) tr ->
    flags = Z.lor ZX_VM_PERM_READ ZX_VM_PERM_EXECUTE /\
    exists v0 pre,
      tr = pre ++ [EvReplaceAsExecutable v0; EvMap 0 v 0 len flags] /\
      fst (on_replace_as_executable P v0) = ZX_OK /\
      v = snd (on_replace_as_executable P v0) /\
      Forall (fun e => is_map e = false /\ is_grant e = false) pre.
Proof.
  intros P namespc path resource o tr vmar_offset v vmo_offset len flags
         Hrun Hin.
  unfold LoadFromNamespace in Hrun.
  pose proof (OpenVmo_no_map P Buffer_default namespc path true) as Hnomap.
  destruct (OpenVmo P Buffer_default namespc path true)
    as [[[opened buf]|] t0] eqn:Hopen; cbn [trace snd] in Hnomap.
  all: assert (Hnot : ~ In (EvMap vmar_offset v vmo_offset len flags) t0)
    by (intros Hin0; rewrite Forall_forall in Hnomap;
        specialize (Hnomap _ Hin0); discriminate).
  - cbn [bind] in Hrun. destruct opened.
    + pose proof (LoadFromVmo_trace P path buf resource true) as Htr.
      destruct (LoadFromVmo P path buf resource true) as [o1 t1].
      cbn [trace snd] in Htr. inversion Hrun; subst o tr; clear Hrun.
      apply in_app_or in Hin. destruct Hin as [Hin|Hin]; [contradiction|].
      subst t1. destruct (size buf =? 0); [destruct Hin|].
      destruct Hin as [Hin|[]]. inversion Hin; subst; clear Hin.
      destruct (OpenVmo_executable_success _ _ _ _ _ _ Hopen)
        as (v0 & pre & Ht0 & Hok & Hv & Hpre).
      split; [reflexivity|].
      exists v0, pre. subst t0. rewrite <- app_assoc. cbn [app].
      auto.
    + cbn in Hrun. inversion Hrun; subst o tr; clear Hrun.
      rewrite app_nil_r in Hin. contradiction.
  - cbn [bind] in Hrun. inversion Hrun; subst o tr. contradiction.
Qed.

(** [a.bin] of the second platform, executable: VMO 11 is acquired, the
    grant answers handle 111, and 111 is what is mapped. *)
Lemma LoadFromNamespace_executable_maps_granted_handle_witness :
  LoadFromNamespace granting_platform None "a.bin" MappedResource.fresh true =
    (Ret (true, MappedResource.mk 7274496 10),
     [EvVmoFromFilename "a.bin"; EvReplaceAsExecutable 11;
      EvMap 0 111 0 10 5]) /\
  5 = Z.lor ZX_VM_PERM_READ ZX_VM_PERM_EXECUTE.
Proof.
  split; [reflexivity |].
  apply (LoadFromNamespace_executable_maps_granted_handle
           granting_platform None "a.bin" MappedResource.fresh
           _ _ 0 111 0 10 5 eq_refl).
  right; right; left; reflexivity.
Defined.

(** X7: a [LoadFromNamespace] without the executable flag never asks for
    execute rights and asks for no protection beyond [READ] in any
    mapping call. *)
Theorem LoadFromNamespace_plain_is_read_only :
  forall P namespc path resource,
    Forall (fun e =>
              match e with
              | EvReplaceAsExecutable _ => False
              | EvMap _ _ _ _ flags => flags = ZX_VM_PERM_READ
              | _ => True
              end)
           (trace (LoadFromNamespace P namespc path resource false)).
Proof.
  intros P namespc path resource.
  unfold LoadFromNamespace, OpenVmo, LoadFromVmo, trace.
  destruct namespc as [ns|]; run_cases;
    repeat constructor.
Qed.

(** X8: the file-system footprint of [LoadFromNamespace].  Among the
    calls of a run, the lookups and closes are: none on a root-anchored
    path; the one [VmoFromFilename] of the path without a namespace; and
    with a namespace the [opendir], followed, when it answered a valid
    descriptor, by one [VmoFromFilenameAt] of the path under that
    descriptor and the close of that descriptor. *)
Theorem LoadFromNamespace_footprint :
  forall P namespc path resource executable,
    filter (fun e => is_lookup e || is_close e)
           (trace (LoadFromNamespace P namespc path resource executable)) =
      if root_anchored path then []
      else match namespc with
           | None => [EvVmoFromFilename path]
           | Some ns =>
               if on_fdio_ns_opendir P ns <? 0 then [EvNsOpendir ns]
               else [EvNsOpendir ns;
                     EvVmoFromFilenameAt (on_fdio_ns_opendir P ns) path;
                     EvClose (on_fdio_ns_opendir P ns)]
           end.
Proof.
  intros P namespc path resource executable.
  unfold root_anchored, LoadFromNamespace, OpenVmo, LoadFromVmo, trace.
  destruct (Ascii.eqb (string_at path 0) "/") eqn:Hpath; [reflexivity |].
  destruct namespc as [ns|].
  - destruct (on_fdio_ns_opendir P ns <? 0) eqn:Hdir;
      unfold_calls; cbn; rewrite Hdir; cbn; [reflexivity |].
    repeat (break_inner; cbn); reflexivity.
  - run_cases; reflexivity.
Qed.



(** ** [OpenFdExec] and the layers of [ElfSnapshot::Load] *)

(** X10: a non-negative result of [OpenFdExec] is a descriptor that
    [fdio_open_fd_at] answered together with [ZX_OK] for that directory
    and path; the call asks for the readable and executable rights and
    not for the writable one, and is the only call of the run. *)
Theorem OpenFdExec_result_is_opened :
  forall P path dirfd fd,
    outcome (OpenFdExec P path dirfd) = Ret fd ->
    0 <= fd ->
    on_fdio_open_fd_at P dirfd path
      (Z.lor OPEN_RIGHT_READABLE OPEN_RIGHT_EXECUTABLE) = (ZX_OK, fd) /\
    trace (OpenFdExec P path dirfd) =
      [EvOpenFdAt dirfd path
         (Z.lor OPEN_RIGHT_READABLE OPEN_RIGHT_EXECUTABLE)] /\
    Z.land (Z.lor OPEN_RIGHT_READABLE OPEN_RIGHT_EXECUTABLE)
           OPEN_RIGHT_WRITABLE = 0.
Proof.
  intros P path dirfd fd Hout Hfd.
  unfold OpenFdExec, outcome, trace in *.
  unfold fdio_open_fd_at, call, ret, bind in *.
  destruct (on_fdio_open_fd_at P dirfd path
              (Z.lor OPEN_RIGHT_READABLE OPEN_RIGHT_EXECUTABLE))
    as [status fd0].
  destruct (status =? ZX_OK) eqn:Hstatus; cbn in Hout |- *;
    inversion Hout; subst.
  - apply Z.eqb_eq in Hstatus. subst. auto.
  - lia.
Qed.

(** [app.so] of the sample platform opens as descriptor 4. *)
Lemma OpenFdExec_result_is_opened_witness :
  on_fdio_open_fd_at sample_platform 3 "app.so"
    (Z.lor OPEN_RIGHT_READABLE OPEN_RIGHT_EXECUTABLE) = (ZX_OK, 4).
Proof.
  apply (OpenFdExec_result_is_opened sample_platform "app.so" 3 4).
  - reflexivity.
  - lia.
Defined.

(** X11: a [Load] through the namespace that never reaches the ELF
    loader (the namespace directory did not open, or the path did not
    open, or the open answered a negative descriptor) returns failure
    and hands back the instance it was given. *)
Theorem ElfSnapshot_Load_unresolved_keeps_instance :
  forall P self namespc path o tr,
    Load_ns P self namespc path = (o, tr) ->
    Forall (fun e => is_load_elf e = false) tr ->
    o = Ret (false, self).
Proof.
  intros P self namespc path o tr Hrun Hnoload.
  unfold Load_ns, Load_dirfd, Load_fd, OpenFdExec in Hrun.
  destruct namespc as [ns|]; run_cases;
    inversion Hrun; subst; clear Hrun; try reflexivity.
  all: exfalso; rewrite Forall_forall in Hnoload.
  all: match goal with
       | |- context [EvLoadELF ?fd ?off] =>
           specialize (Hnoload (EvLoadELF fd off))
       | _ : context [EvLoadELF ?fd ?off] |- _ =>
           specialize (Hnoload (EvLoadELF fd off))
       end.
  all: cbn in Hnoload; assert (true = false) by (apply Hnoload; auto 10);
    discriminate.
Qed.

(** A path the sample platform does not know, over a loaded instance. *)
Lemma ElfSnapshot_Load_unresolved_keeps_instance_witness :
  Ret (false, ElfSnapshot.mk 500 1000 2000 3000 4000) =
  Ret (false, ElfSnapshot.mk 500 1000 2000 3000 4000).
Proof.
  apply (ElfSnapshot_Load_unresolved_keeps_instance sample_platform
           (ElfSnapshot.mk 500 1000 2000 3000 4000) (Some 1) "missing"
           _ [EvNsOpendir 1; EvOpenFdAt 3 "missing" 9] eq_refl).
  repeat constructor.
Defined.

(** X12: on an instance without a loader handle, the result of a [Load]
    through the namespace tells whether the instance holds a handle
    afterwards: true exactly when the handle is non-null. *)
Theorem ElfSnapshot_Load_result_iff_handle :
  forall P self namespc path ok self' tr,
    handle_ self = nullptr ->
    Load_ns P self namespc path = (Ret (ok, self'), tr) ->
    ok = negb (handle_ self' =? nullptr).
Proof.
  intros P self namespc path ok self' tr Hnull Hrun.
  unfold Load_ns, Load_dirfd, Load_fd, OpenFdExec in Hrun.
  unfold_calls. cbn -[Z.eqb Z.ltb] in Hrun.
  repeat match type of Hrun with
         | context [match ?x with _ => _ end] =>
             lazymatch x with
             | context [match _ with _ => _ end] => fail
             | _ => destruct x eqn:?
             end; cbn -[Z.eqb Z.ltb] in Hrun
         end;
    inversion Hrun; subst; clear Hrun; cbn [handle_];
    try (rewrite Hnull; reflexivity).
  all: match goal with
       | H : (_ =? nullptr) = _ |- _ => cbn [handle_] in H; rewrite H
       end; reflexivity.
Qed.

(** A corrupt image on the sample platform: the load fails and the fresh
    instance still has no handle. *)
Lemma ElfSnapshot_Load_result_iff_handle_witness :
  Load_ns sample_platform ElfSnapshot.fresh None "/app.so" =
    (Ret (false, ElfSnapshot.fresh),
     [EvOpenFdAt AT_FDCWD "/app.so" 9; EvLoadELF 5 0]) /\
  false = negb (handle_ ElfSnapshot.fresh =? nullptr).
Proof.
  split; [reflexivity |].
  apply (ElfSnapshot_Load_result_iff_handle sample_platform
           ElfSnapshot.fresh None "/app.so" false ElfSnapshot.fresh
           [EvOpenFdAt AT_FDCWD "/app.so" 9; EvLoadELF 5 0]).
  - reflexivity.
  - reflexivity.
Defined.

(** X13: two [Load(fd)] calls on one instance followed by its
    destruction make three external calls: the two loader calls, the
    second one receiving the region fields the first one left, and one
    unload, of the handle the second loader call returned.  The handle
    of the first load is not passed to [Dart_UnloadELF]. *)
Theorem ElfSnapshot_second_load_leaks_first :
  forall P self fd1 fd2,
    let r1 := on_Dart_LoadELF_Fd P fd1 0 (vm_data_ self) (vm_instrs_ self)
                (isolate_data_ self) (isolate_instrs_ self) in
    let r2 := on_Dart_LoadELF_Fd P fd2 0 (ld_vm_data r1) (ld_vm_instrs r1)
                (ld_isolate_data r1) (ld_isolate_instrs r1) in
    trace ('(_, self1) <- Load_fd P self fd1 ;;
           '(_, self2) <- Load_fd P self1 fd2 ;;
           ElfSnapshot.destroy self2) =
      [EvLoadELF fd1 0; EvLoadELF fd2 0; EvUnloadELF (ld_handle r2)] /\
    count_unload
      (trace ('(_, self1) <- Load_fd P self fd1 ;;
              '(_, self2) <- Load_fd P self1 fd2 ;;
              ElfSnapshot.destroy self2)) = 1%nat.
Proof.
  intros P self fd1 fd2 r1 r2. subst r1 r2.
  unfold Load_fd, ElfSnapshot.destroy, trace.
  unfold_calls. cbn -[Z.eqb].
  repeat match goal with
         | |- context [if ?c then _ else _] => destruct c; cbn -[Z.eqb]
         end; split; reflexivity.
Qed.

(** X14: what a [Load] through the namespace may call.  The namespace
    directory is opened only for the namespace given; the path is opened
    only under the descriptor that [opendir] answered (or [AT_FDCWD]
    without a namespace), with the readable and executable rights; the
    loader is called only at file offset zero on a non-negative
    descriptor which that open answered with [ZX_OK].  No descriptor is
    closed, nothing is mapped, unmapped, granted or unloaded. *)
Theorem ElfSnapshot_Load_calls_are_scoped :
  forall P self namespc path,
    let dirfd := match namespc with
                 | None => AT_FDCWD
                 | Some ns => on_fdio_ns_opendir P ns
                 end in
    let rights := Z.lor OPEN_RIGHT_READABLE OPEN_RIGHT_EXECUTABLE in
    Forall (fun e =>
              match e with
              | EvNsOpendir ns => namespc = Some ns
              | EvOpenFdAt d p r => d = dirfd /\ p = path /\ r = rights
              | EvLoadELF fd file_offset =>
                  file_offset = 0 /\ 0 <= fd /\
                  on_fdio_open_fd_at P dirfd path rights = (ZX_OK, fd)
              | _ => False
              end)
           (trace (Load_ns P self namespc path)).
Proof.
  intros P self namespc path dirfd rights. subst dirfd rights.
  unfold Load_ns, Load_dirfd, Load_fd, OpenFdExec, trace.
  destruct namespc as [ns|]; run_cases; repeat constructor; try lia.
  all: f_equal; lia.
Qed.

(** X15: [LoadFromNamespace] asks for execute rights only when the
    executable flag is set, only after the acquisition of the path
    answered true, and only for the handle of the buffer that
    acquisition answered. *)
Theorem LoadFromNamespace_grant_only_for_acquired :
  forall P namespc path resource executable v,
    In (EvReplaceAsExecutable v)
       (trace (LoadFromNamespace P namespc path resource executable)) ->
    let acquired :=
      match namespc with
      | None => on_VmoFromFilename P path
      | Some ns => on_VmoFromFilenameAt P (on_fdio_ns_opendir P ns) path
      end in
    executable = true /\
    fst acquired = true /\
    vmo (snd acquired) = v.
Proof.
  intros P namespc path resource executable v Hin acquired.
  subst acquired.
  unfold LoadFromNamespace, OpenVmo, LoadFromVmo, trace in Hin.
  destruct namespc as [ns|]; run_cases;
    repeat (destruct Hin as [Hin|Hin]; [try discriminate|]);
    try contradiction.
  all: inversion Hin; subst; repeat split; try reflexivity.
  all: match goal with
       | H : negb ?b = false |- ?b = true =>
           destruct b; [reflexivity | discriminate H]
       end.
Qed.

(** [a.bin] of the second platform under the namespace: the grant is
    asked for VMO 11. *)
Lemma LoadFromNamespace_grant_only_for_acquired_witness :
  true = true /\
  fst (on_VmoFromFilenameAt granting_platform
         (on_fdio_ns_opendir granting_platform 1) "a.bin") = true /\
  vmo (snd (on_VmoFromFilenameAt granting_platform
              (on_fdio_ns_opendir granting_platform 1) "a.bin")) = 11.
Proof.
  apply (LoadFromNamespace_grant_only_for_acquired granting_platform
           (Some 1) "a.bin" MappedResource.fresh true 11).
  right; right; right; left; reflexivity.
Defined.
